(** * The sprint resource of the agile REST binding

    A shallow embedding of [src/api/sprint.js]: the eight operations of
    [AgileSprintClient], each of which builds one request descriptor from a
    caller-supplied options object and hands it to the client's transport.

    JavaScript objects are shared and mutated in place ([delete
    opts.sprintId]), so object values are references into a store; the
    operations are written in a small state-and-exception monad over that
    store. *)

From Stdlib Require Import Ascii.
From stdpp Require Import gmap strings list fin_maps pretty.

(** Object identities (addresses in the store). *)
Abbreviation loc := positive.

Section AgileSprintClient.

(** ** Values *)

(** JavaScript numbers are IEEE doubles.  Their arithmetic plays no role
    here; the only thing the client does with a number is to splice its
    text into a path, so the type of numbers stays abstract. *)
Context {number : Type}.

Inductive value : Type :=
  | VUndefined
  | VNull
  | VBool (b : bool)
  | VNumber (n : number)
  | VString (s : string)
  | VObject (l : loc).

(** An own data property of an object: its value, and whether it is
    configurable.  A property written by an object literal or by JSON is
    configurable; [Object.freeze], [Object.seal] and
    [Object.defineProperty] make properties that are not, and those cannot
    be deleted. *)
Record property : Type := Property {
  property_value : value;
  configurable : bool
}.

(** An object is its table of own properties.  The names this client reads
    ([sprintId], [filter], [startAt], ...) are not defined by
    [Object.prototype], so a lookup that misses the own properties yields
    [undefined].  The store maps the identity of an object to its table. *)
Local Abbreviation store := (gmap loc (gmap string property)).

(** The table of an object written as a literal, and of the same object
    once frozen. *)
Definition plain (o : gmap string value) : gmap string property :=
  (λ v, {| property_value := v; configurable := true |}) <$> o.

Definition frozen (o : gmap string value) : gmap string property :=
  (λ v, {| property_value := v; configurable := false |}) <$> o.

(** A key can be deleted from a table when it is absent or names a
    configurable property. *)
Definition removable (o : gmap string property) (k : string) : bool :=
  match o !! k with
  | Some p => configurable p
  | None => true
  end.

(** The conversions to string the language runtime provides:
    [Number.prototype.toString], and for an object the [toString] or
    [valueOf] found through its prototype chain. *)
Class Runtime : Type := {
  Number_toString : number → string;
  Object_toString : store → loc → string
}.

Context `{runtime : !Runtime}.

Definition ToString (h : store) (v : value) : string :=
  match v with
  | VUndefined => "undefined"
  | VNull => "null"
  | VBool true => "true"
  | VBool false => "false"
  | VNumber n => Number_toString n
  | VString s => s
  | VObject l => Object_toString h l
  end.

(** ** Request descriptors *)

(** The object literal [options] each operation builds.  [json] and
    [followAllRedirects] are written by every operation; [qs] and [body]
    are keys that an operation either writes or leaves out. *)
Record descriptor : Type := Descriptor {
  uri : string;
  method : string;
  json : bool;
  followAllRedirects : bool;
  suppliedOptions : value;
  qs : option (gmap string value);
  body : option value
}.

(** ** The monad *)

(** What can be thrown: the TypeError of the language itself, or whatever
    a method of [jiraClient] raises. *)
Inductive error : Type :=
  | TypeError
  | Raised (v : value).

Inductive completion (A : Type) : Type :=
  | Normal (a : A)
  | Throw (e : error).
Arguments Normal {A} a.
Arguments Throw {A} e.

(** The store, and the calls made to the transport so far (each with the
    descriptor and the callback it was given). *)
Record world : Type := World {
  heap : gmap loc (gmap string property);
  requests : list (descriptor * value)
}.

Definition JS (A : Type) : Type := world → completion A * world.

#[local] Instance JS_ret : MRet JS := λ A a w, (Normal a, w).

#[local] Instance JS_bind : MBind JS := λ A B f m w,
  match m w with
  | (Normal a, w') => f a w'
  | (Throw e, w') => (Throw e, w')
  end.

(** [v.k].  Reading a property of [undefined] or [null] throws; the other
    primitives have none of the properties this client reads. *)
Definition Get (v : value) (k : string) : JS value := λ w,
  match v with
  | VUndefined | VNull => (Throw TypeError, w)
  | VObject l =>
      (Normal (default VUndefined
                 (property_value <$> (heap w !! l ≫= (.!! k)))), w)
  | VBool _ | VNumber _ | VString _ => (Normal VUndefined, w)
  end.

(** [delete v.k], in strict mode (the file starts with ["use strict"]).
    The reference [v.k] is evaluated like a read, so it throws on
    [undefined] and [null].  On an object, an absent or configurable
    property is removed from the object itself, in place; a property that
    is not configurable stays, and the failed deletion is a TypeError.  On
    another primitive there is nothing to remove. *)
Definition Delete (v : value) (k : string) : JS unit := λ w,
  match v with
  | VUndefined | VNull => (Throw TypeError, w)
  | VObject l =>
      if removable (default ∅ (heap w !! l)) k
      then (Normal (),
            {| heap := alter (delete k) l (heap w); requests := requests w |})
      else (Throw TypeError, w)
  | VBool _ | VNumber _ | VString _ => (Normal (), w)
  end.

(** [s + v] for a string [s]: the text of [v] appended to [s]. *)
Definition Plus (s : string) (v : value) : JS string := λ w,
  (Normal (s +:+ ToString (heap w) v), w).

(** ** The client *)

(** What [jiraClient.parseOptions] returns: an object read only through
    its [suppliedOptions] and [body] properties. *)
Record parsed : Type := Parsed {
  parsed_suppliedOptions : value;
  parsed_body : value
}.

(** The [jiraClient] object handed to the constructor, as far as the sprint
    client uses it: three methods, defined outside [src/api/sprint.js].
    [parseOptions] and [makeRequest] may read and write the store and may
    throw; [buildAgileURL] is the URL resolver.  [deferred] is what the
    transport returns (a promise); [settled] and [notified] observe what
    becomes of it: the outcome it settles with and the callbacks invoked
    for it, each with the outcome it was given. *)
Context {deferred outcome : Type}.

Class JiraClient : Type := {
  parseOptions : value → value → store → completion parsed * store;
  buildAgileURL : string → string;
  makeRequest : descriptor → value → store → completion deferred * store;
  settled : deferred → outcome;
  notified : deferred → list (value * outcome)
}.

Context `{jiraClient : !JiraClient}.

Definition jiraClient_parseOptions (opts key : value) : JS parsed := λ w,
  let '(r, h) := parseOptions opts key (heap w) in
  (r, {| heap := h; requests := requests w |}).

Definition jiraClient_makeRequest (options : descriptor) (callback : value)
  : JS deferred := λ w,
  let '(r, h) := makeRequest options callback (heap w) in
  (r, {| heap := h; requests := requests w ++ [(options, callback)] |}).

(** *** createSprint *)

Definition createSprint_options (opts : value) : JS descriptor :=
  result ← jiraClient_parseOptions opts VUndefined;
  mret {| uri := buildAgileURL "/sprint";
          method := "POST";
          followAllRedirects := true;
          suppliedOptions := parsed_suppliedOptions result;
          json := true;
          body := Some (parsed_body result);
          qs := None |}.

Definition createSprint (opts callback : value) : JS deferred :=
  options ← createSprint_options opts;
  jiraClient_makeRequest options callback.

(** *** getSprint *)

Definition getSprint_options (opts : value) : JS descriptor :=
  sprintId ← Get opts "sprintId";
  path ← Plus "/sprint/" sprintId;
  filter ← Get opts "filter";
  startAt ← Get opts "startAt";
  maxResults ← Get opts "maxResults";
  mret {| uri := buildAgileURL path;
          method := "GET";
          json := true;
          followAllRedirects := true;
          suppliedOptions := opts;
          qs := Some {[ "filter" := filter;
                        "startAt" := startAt;
                        "maxResults" := maxResults ]};
          body := None |}.

Definition getSprint (opts callback : value) : JS deferred :=
  options ← getSprint_options opts;
  jiraClient_makeRequest options callback.

(** *** updateSprint *)

Definition updateSprint_options (opts : value) : JS descriptor :=
  result ← jiraClient_parseOptions opts (VString "sprint");
  sprintId ← Get (parsed_body result) "sprintId";
  _ ← Delete (parsed_body result) "sprintId";
  path ← Plus "/sprint/" sprintId;
  mret {| uri := buildAgileURL path;
          method := "PUT";
          followAllRedirects := true;
          json := true;
          suppliedOptions := parsed_suppliedOptions result;
          body := Some (parsed_body result);
          qs := None |}.

Definition updateSprint (opts callback : value) : JS deferred :=
  options ← updateSprint_options opts;
  jiraClient_makeRequest options callback.

(** *** partiallyUpdateSprint *)

Definition partiallyUpdateSprint_options (opts : value) : JS descriptor :=
  result ← jiraClient_parseOptions opts (VString "sprint");
  sprintId ← Get (parsed_body result) "sprintId";
  _ ← Delete (parsed_body result) "sprintId";
  path ← Plus "/sprint/" sprintId;
  mret {| uri := buildAgileURL path;
          method := "POST";
          followAllRedirects := true;
          json := true;
          suppliedOptions := parsed_suppliedOptions result;
          body := Some (parsed_body result);
          qs := None |}.

Definition partiallyUpdateSprint (opts callback : value) : JS deferred :=
  options ← partiallyUpdateSprint_options opts;
  jiraClient_makeRequest options callback.

(** *** deleteSprint *)

Definition deleteSprint_options (opts : value) : JS descriptor :=
  sprintId ← Get opts "sprintId";
  path ← Plus "/sprint/" sprintId;
  filter ← Get opts "filter";
  startAt ← Get opts "startAt";
  maxResults ← Get opts "maxResults";
  mret {| uri := buildAgileURL path;
          method := "DELETE";
          json := true;
          followAllRedirects := true;
          suppliedOptions := opts;
          qs := Some {[ "filter" := filter;
                        "startAt" := startAt;
                        "maxResults" := maxResults ]};
          body := None |}.

Definition deleteSprint (opts callback : value) : JS deferred :=
  options ← deleteSprint_options opts;
  jiraClient_makeRequest options callback.

(** *** getSprintIssues *)

Definition getSprintIssues_options (opts : value) : JS descriptor :=
  sprintId ← Get opts "sprintId";
  path ← Plus "/sprint/" sprintId;
  startAt ← Get opts "startAt";
  maxResults ← Get opts "maxResults";
  jql ← Get opts "jql";
  validateQuery ← Get opts "validateQuery";
  fields ← Get opts "fields";
  expand ← Get opts "expand";
  mret {| uri := buildAgileURL (path +:+ "/issue");
          method := "GET";
          json := true;
          followAllRedirects := true;
          suppliedOptions := opts;
          qs := Some {[ "startAt" := startAt;
                        "maxResults" := maxResults;
                        "jql" := jql;
                        "validateQuery" := validateQuery;
                        "fields" := fields;
                        "expand" := expand ]};
          body := None |}.

Definition getSprintIssues (opts callback : value) : JS deferred :=
  options ← getSprintIssues_options opts;
  jiraClient_makeRequest options callback.

(** *** moveSprintIssues *)

Definition moveSprintIssues_options (opts : value) : JS descriptor :=
  sprintId ← Get opts "sprintId";
  _ ← Delete opts "sprintId";
  path ← Plus "/sprint/" sprintId;
  mret {| uri := buildAgileURL (path +:+ "/issue");
          method := "POST";
          followAllRedirects := true;
          suppliedOptions := opts;
          json := true;
          body := Some opts;
          qs := None |}.

Definition moveSprintIssues (opts callback : value) : JS deferred :=
  options ← moveSprintIssues_options opts;
  jiraClient_makeRequest options callback.

(** *** swapSprint *)

Definition swapSprint_options (opts : value) : JS descriptor :=
  result ← jiraClient_parseOptions opts (VString "swapped");
  sprintId ← Get (parsed_body result) "sprintId";
  _ ← Delete (parsed_body result) "sprintId";
  path ← Plus "/sprint/" sprintId;
  mret {| uri := buildAgileURL (path +:+ "/swap");
          method := "POST";
          followAllRedirects := true;
          suppliedOptions := parsed_suppliedOptions result;
          json := true;
          body := Some (parsed_body result);
          qs := None |}.

Definition swapSprint (opts callback : value) : JS deferred :=
  options ← swapSprint_options opts;
  jiraClient_makeRequest options callback.

(** ** The operation table *)

Inductive operation : Type :=
  | CreateSprint
  | GetSprint
  | UpdateSprint
  | PartiallyUpdateSprint
  | DeleteSprint
  | GetSprintIssues
  | MoveSprintIssues
  | SwapSprint.

(** The descriptor an operation builds, before it is sent. *)
Definition options_of (op : operation) : value → JS descriptor :=
  match op with
  | CreateSprint => createSprint_options
  | GetSprint => getSprint_options
  | UpdateSprint => updateSprint_options
  | PartiallyUpdateSprint => partiallyUpdateSprint_options
  | DeleteSprint => deleteSprint_options
  | GetSprintIssues => getSprintIssues_options
  | MoveSprintIssues => moveSprintIssues_options
  | SwapSprint => swapSprint_options
  end.

(** The public method. *)
Definition invoke (op : operation) : value → value → JS deferred :=
  match op with
  | CreateSprint => createSprint
  | GetSprint => getSprint
  | UpdateSprint => updateSprint
  | PartiallyUpdateSprint => partiallyUpdateSprint
  | DeleteSprint => deleteSprint
  | GetSprintIssues => getSprintIssues
  | MoveSprintIssues => moveSprintIssues
  | SwapSprint => swapSprint
  end.

(** ** The operation table of the specification *)

(** A path template: literal text around the place of the identifier. *)
Inductive segment : Type :=
  | Lit (s : string)
  | Id.

Definition path_template (op : operation) : list segment :=
  match op with
  | CreateSprint => [Lit "/sprint"]
  | GetSprint | UpdateSprint | PartiallyUpdateSprint | DeleteSprint =>
      [Lit "/sprint/"; Id]
  | GetSprintIssues | MoveSprintIssues => [Lit "/sprint/"; Id; Lit "/issue"]
  | SwapSprint => [Lit "/sprint/"; Id; Lit "/swap"]
  end.

(** The template with the identifier's text in the place of [Id]. *)
Fixpoint substitute (id : string) (t : list segment) : string :=
  match t with
  | [] => ""
  | Lit s :: t' => s +:+ substitute id t'
  | Id :: t' => id +:+ substitute id t'
  end.

(** A text in which no placeholder can be left: it has no brace. *)
Fixpoint placeholder_free (s : string) : bool :=
  match s with
  | EmptyString => true
  | String c s' =>
      negb (Ascii.eqb c "{"%char) && negb (Ascii.eqb c "}"%char)
      && placeholder_free s'
  end.

Definition method_table (op : operation) : string :=
  match op with
  | CreateSprint => "POST"
  | GetSprint => "GET"
  | UpdateSprint => "PUT"
  | PartiallyUpdateSprint => "POST"
  | DeleteSprint => "DELETE"
  | GetSprintIssues => "GET"
  | MoveSprintIssues => "POST"
  | SwapSprint => "POST"
  end.

(** Where an operation takes the sprint identifier from: nowhere, the
    options object itself, or the payload [parseOptions] extracts for the
    given legacy key. *)
Inductive identifier_source : Type :=
  | NoIdentifier
  | FromOptions
  | FromPayload (key : string).

Definition source_of (op : operation) : identifier_source :=
  match op with
  | CreateSprint => NoIdentifier
  | GetSprint | DeleteSprint | GetSprintIssues | MoveSprintIssues => FromOptions
  | UpdateSprint | PartiallyUpdateSprint => FromPayload "sprint"
  | SwapSprint => FromPayload "swapped"
  end.

(** The write operations whose body is the object that carries the
    identifier. *)
Definition identifier_in_body (op : operation) : bool :=
  match op with
  | UpdateSprint | PartiallyUpdateSprint | MoveSprintIssues | SwapSprint => true
  | CreateSprint | GetSprint | DeleteSprint | GetSprintIssues => false
  end.

(** The read and delete operations, and the query keys each declares. *)
Definition reads_query (op : operation) : bool :=
  match op with
  | GetSprint | DeleteSprint | GetSprintIssues => true
  | CreateSprint | UpdateSprint | PartiallyUpdateSprint
  | MoveSprintIssues | SwapSprint => false
  end.

Definition declared_query (op : operation) : gset string :=
  match op with
  | GetSprint | DeleteSprint => {[ "filter"; "startAt"; "maxResults" ]}
  | GetSprintIssues =>
      {[ "startAt"; "maxResults"; "jql"; "validateQuery"; "fields"; "expand" ]}
  | CreateSprint | UpdateSprint | PartiallyUpdateSprint
  | MoveSprintIssues | SwapSprint => ∅
  end.

(** [carrier op opts w l o h]: called on [opts] in world [w], operation
    [op] takes the identifier from the object at [l], whose properties are
    [o] in the store [h] the operation reads them in (for the payload
    operations, the store [parseOptions] leaves).  [createSprint] takes no
    identifier; for it the relation only says that the options parse. *)
Definition carrier (op : operation) (opts : value) (w : world)
    (l : loc) (o : gmap string property) (h : gmap loc (gmap string property))
  : Prop :=
  match source_of op with
  | NoIdentifier =>
      ∃ r, parseOptions opts VUndefined (heap w) = (Normal r, h)
  | FromOptions =>
      opts = VObject l ∧ h = heap w ∧ h !! l = Some o
  | FromPayload key =>
      ∃ r, parseOptions opts (VString key) (heap w) = (Normal r, h)
           ∧ parsed_body r = VObject l ∧ h !! l = Some o
  end.

(** The operation has to delete [sprintId] from the object [o] that
    carries it, and cannot: the property is there and is not
    configurable. *)
Definition identifier_locked (op : operation) (o : gmap string property)
  : bool :=
  identifier_in_body op && negb (removable o "sprintId").

(** The operation needs an identifier and the object it takes it from has
    no [sprintId] key. *)
Definition lacks_identifier (op : operation) (opts : value) (w : world) : Prop :=
  source_of op ≠ NoIdentifier
  ∧ ∃ l o h, carrier op opts w l o h ∧ o !! "sprintId" = None.

(** A run that ends in an exception. *)
Definition signals_failure {A : Type} (r : completion A * world) : Prop :=
  ∃ e, r.1 = Throw e.

(** [undefined] and [null]: the values a property cannot be read from. *)
Definition nullish (v : value) : bool :=
  match v with
  | VUndefined | VNull => true
  | VBool _ | VNumber _ | VString _ | VObject _ => false
  end.

(** The primitives a property can be read from. *)
Definition primitive (v : value) : bool :=
  match v with
  | VBool _ | VNumber _ | VString _ => true
  | VUndefined | VNull | VObject _ => false
  end.

(** The second argument of the operation's call of [parseOptions], for the
    operations that call it ([createSprint] passes one argument only). *)
Definition parse_argument (op : operation) : option value :=
  match op with
  | CreateSprint => Some VUndefined
  | UpdateSprint | PartiallyUpdateSprint => Some (VString "sprint")
  | SwapSprint => Some (VString "swapped")
  | GetSprint | DeleteSprint | GetSprintIssues | MoveSprintIssues => None
  end.

(** Modelled from the spec: the Transport contract (spec section 6, and
    design rule 3) for [jiraClient.makeRequest], whose code is not part of
    [src/api/sprint.js].  A request made with a completion callback invokes
    that callback, once, with the outcome the returned deferred settles
    with. *)
Definition dual_dispatch : Prop :=
  ∀ options f h p h',
    makeRequest options (VObject f) h = (Normal p, h') →
    notified p = [(VObject f, settled p)].

(** ** Structural identity *)

(** Two object graphs are structurally identical when a one-to-one
    correspondence [R] of their object identities carries one onto the
    other: primitives are equal, and corresponding objects have the same
    keys with corresponding values. *)
Section Structure.
Variable R : loc → loc → Prop.

Definition partial_bijection : Prop :=
  (∀ a b b', R a b → R a b' → b = b') ∧ (∀ a a' b, R a b → R a' b → a = a').

Inductive same_value : value → value → Prop :=
  | same_undefined : same_value VUndefined VUndefined
  | same_null : same_value VNull VNull
  | same_bool b : same_value (VBool b) (VBool b)
  | same_number n : same_value (VNumber n) (VNumber n)
  | same_string s : same_value (VString s) (VString s)
  | same_object a b : R a b → same_value (VObject a) (VObject b).

Definition same_property (p1 p2 : property) : Prop :=
  same_value (property_value p1) (property_value p2)
  ∧ configurable p1 = configurable p2.

Definition same_table (o1 o2 : gmap string property) : Prop :=
  ∀ k, option_Forall2 same_property (o1 !! k) (o2 !! k).

Definition same_store (h1 h2 : gmap loc (gmap string property)) : Prop :=
  ∀ a b, R a b → option_Forall2 same_table (h1 !! a) (h2 !! b).

(** The query of a descriptor is a table of values. *)
Definition same_query (q1 q2 : gmap string value) : Prop :=
  ∀ k, option_Forall2 same_value (q1 !! k) (q2 !! k).

Definition same_descriptor (d1 d2 : descriptor) : Prop :=
  uri d1 = uri d2 ∧ method d1 = method d2 ∧ json d1 = json d2
  ∧ followAllRedirects d1 = followAllRedirects d2
  ∧ same_value (suppliedOptions d1) (suppliedOptions d2)
  ∧ option_Forall2 same_query (qs d1) (qs d2)
  ∧ option_Forall2 same_value (body d1) (body d2).

Definition same_parsed (r1 r2 : parsed) : Prop :=
  same_value (parsed_suppliedOptions r1) (parsed_suppliedOptions r2)
  ∧ same_value (parsed_body r1) (parsed_body r2).

Definition same_error (e1 e2 : error) : Prop :=
  match e1, e2 with
  | TypeError, TypeError => True
  | Raised v1, Raised v2 => same_value v1 v2
  | _, _ => False
  end.

Definition same_completion {A : Type} (P : A → A → Prop)
    (c1 c2 : completion A) : Prop :=
  match c1, c2 with
  | Normal a1, Normal a2 => P a1 a2
  | Throw e1, Throw e2 => same_error e1 e2
  | _, _ => False
  end.

(** Two runs that end alike: both return related results or both throw
    related exceptions, and they leave structurally identical stores. *)
Definition same_run {A : Type} (P : A → A → Prop)
    (r1 r2 : completion A * world) : Prop :=
  same_completion P r1.1 r2.1 ∧ same_store (heap r1.2) (heap r2.2).

End Structure.

(** The two collaborators are functions of the structure of what they are
    given: on structurally identical stores and arguments they answer
    alike ([parseOptions] may allocate, so the correspondence of its
    results is a new one). *)
Definition Object_toString_structural : Prop :=
  ∀ R h1 h2 a b,
    partial_bijection R → same_store R h1 h2 → R a b →
    Object_toString h1 a = Object_toString h2 b.

Definition parseOptions_structural : Prop :=
  ∀ R h1 h2 o1 o2 key,
    partial_bijection R → same_store R h1 h2 → same_value R o1 o2 →
    ∃ R', partial_bijection R'
          ∧ same_completion R' (same_parsed R')
              (parseOptions o1 key h1).1 (parseOptions o2 key h2).1
          ∧ same_store R' (parseOptions o1 key h1).2 (parseOptions o2 key h2).2.

End AgileSprintClient.

Arguments value : clear implicits.
Arguments property : clear implicits.
Arguments error : clear implicits.
Arguments descriptor : clear implicits.
Arguments parsed : clear implicits.
Arguments world : clear implicits.
Arguments Runtime : clear implicits.
Arguments JiraClient : clear implicits.
Arguments completion : clear implicits.
Arguments Normal {number A} a.
Arguments Throw {number A} e.
Arguments JS : clear implicits.

(** ** A concrete client

    An instance of the interfaces above, on which the operations can be
    run: integer numbers printed in decimal, plain objects, a resolver that
    prefixes the agile namespace, and a transport that answers every
    request the same way.  The scenarios of the specification are laid out
    in one store. *)
Module Sample.

Definition runtime : Runtime Z := {|
  Number_toString := pretty;
  Object_toString := λ _ _, "[object Object]"
|}.

(** Modelled from the spec: [jiraClient.parseOptions] is not part of
    [src/api/sprint.js].  In the scenarios of the specification the payload
    of a write travels under the [data] key of the options, and the options
    themselves are kept for the transport. *)
Definition parse_data (opts key : value Z)
    (h : gmap loc (gmap string (property Z)))
  : completion Z (parsed Z) * gmap loc (gmap string (property Z)) :=
  match opts with
  | VUndefined | VNull => (Throw TypeError, h)
  | VObject l =>
      (Normal {| parsed_suppliedOptions := opts;
                 parsed_body :=
                   default VUndefined
                     (property_value <$> (h !! l ≫= (.!! "data"))) |}, h)
  | VBool _ | VNumber _ | VString _ =>
      (Normal {| parsed_suppliedOptions := opts; parsed_body := VUndefined |}, h)
  end.

Definition resolve (path : string) : string :=
  "https://jira.example.com/rest/agile/1.0" +:+ path.

(** A transport whose deferred is the exchange itself, and which settles
    every exchange with the same outcome and reports it to the callback. *)
Definition exchange : Type := descriptor Z * value Z.

Definition transport (options : descriptor Z) (callback : value Z)
    (h : gmap loc (gmap string (property Z)))
  : completion Z exchange * gmap loc (gmap string (property Z)) :=
  (Normal (options, callback), h).

Definition settles (p : exchange) : string := "200 OK".

Definition notifies (p : exchange) : list (value Z * string) :=
  match p.2 with
  | VObject f => [(VObject f, settles p)]
  | _ => []
  end.

Definition jiraClient : JiraClient Z exchange string := {|
  parseOptions := parse_data;
  buildAgileURL := resolve;
  makeRequest := transport;
  settled := settles;
  notified := notifies
|}.

(** The scenarios: [{sprintId: 42, maxResults: 50}] at 1;
    [{data: {sprintId: 331, name: "Sprint 5"}}] at 2, its payload at 3;
    [{sprintId: 7, issues: ["ISS-1", "ISS-2"]}] at 4, its array at 5, and a
    second, separate copy of both at 6 and 7; an empty options object at 8;
    [{data: {name: "Sprint 5"}}] at 9, its payload at 10; a callback
    function at 11. *)
Definition get_options : gmap string (value Z) :=
  {[ "sprintId" := VNumber 42%Z; "maxResults" := VNumber 50%Z ]}.

Definition payload : gmap string (value Z) :=
  {[ "sprintId" := VNumber 331%Z; "name" := VString "Sprint 5" ]}.

Definition move_options (array : loc) : gmap string (value Z) :=
  {[ "sprintId" := VNumber 7%Z; "issues" := VObject array ]}.

Definition issues : gmap string (value Z) :=
  {[ "0" := VString "ISS-1"; "1" := VString "ISS-2"; "length" := VNumber 2%Z ]}.

Definition store0 : gmap loc (gmap string (property Z)) :=
  {[ 1%positive := plain get_options;
     2%positive := plain {[ "data" := VObject 3 ]};
     3%positive := plain payload;
     4%positive := plain (move_options 5);
     5%positive := plain issues;
     6%positive := plain (move_options 7);
     7%positive := plain issues;
     8%positive := ∅;
     9%positive := plain {[ "data" := VObject 10 ]};
     10%positive := plain {[ "name" := VString "Sprint 5" ]};
     11%positive := ∅ ]}.

Definition world0 : world Z := {| heap := store0; requests := [] |}.

Definition callback : value Z := VObject 11.

(** The descriptor the specification expects of
    [getSprint({sprintId: 42, maxResults: 50})]. *)
Definition get_descriptor : descriptor Z := {|
  uri := "https://jira.example.com/rest/agile/1.0/sprint/42";
  method := "GET";
  json := true;
  followAllRedirects := true;
  suppliedOptions := VObject 1;
  qs := Some {[ "filter" := VUndefined;
                "startAt" := VUndefined;
                "maxResults" := VNumber 50%Z ]};
  body := None
|}.

(** The correspondence between the two copies of the options of
    [moveSprintIssues]. *)
Definition copy (a b : loc) : Prop :=
  (a = 4%positive ∧ b = 6%positive) ∨ (a = 5%positive ∧ b = 7%positive).

(** A second store, with two options objects whose identifiers are
    strings: [{sprintId: "7/issue"}] at 1 and [{sprintId: "7"}] at 2. *)
Definition store1 : gmap loc (gmap string (property Z)) :=
  {[ 1%positive := plain {[ "sprintId" := VString "7/issue" ]};
     2%positive := plain {[ "sprintId" := VString "7" ]} ]}.

Definition world1 : world Z := {| heap := store1; requests := [] |}.

(** A third store, with frozen objects: the options of
    [moveSprintIssues] after [Object.freeze] at 1, their array at 2;
    [{data: ...}] at 3 with the frozen payload
    [{sprintId: 331, name: "Sprint 5"}] at 4. *)
Definition store2 : gmap loc (gmap string (property Z)) :=
  {[ 1%positive := frozen (move_options 2);
     2%positive := plain issues;
     3%positive := plain {[ "data" := VObject 4 ]};
     4%positive := frozen payload ]}.

Definition world2 : world Z := {| heap := store2; requests := [] |}.

End Sample.

(** * Properties *)

Section Properties.
Context {number deferred outcome : Type}.
Context `{runtime : !Runtime number}.
Context `{jiraClient : !JiraClient number deferred outcome}.

#[local] Existing Instance JS_ret.
#[local] Existing Instance JS_bind.

Implicit Types (opts callback : value number) (w : world number).
Implicit Types (l : loc) (o : gmap string (property number)).
Implicit Types (h : gmap loc (gmap string (property number))).
Implicit Types (d : descriptor number) (op : operation).

(** ** Stepping through the monad *)

Lemma bind_Normal {A B} (m : JS number A) (f : A → JS number B) w a w1 :
  m w = (Normal a, w1) → (m ≫= f) w = f a w1.
Proof. intros Hm. unfold mbind, JS_bind. by rewrite Hm. Qed.

Lemma bind_Throw {A B} (m : JS number A) (f : A → JS number B) w e w1 :
  m w = (Throw e, w1) → (m ≫= f) w = (Throw e, w1).
Proof. intros Hm. unfold mbind, JS_bind. by rewrite Hm. Qed.

Lemma bind_Normal_inv {A B} (m : JS number A) (f : A → JS number B) w b w2 :
  (m ≫= f) w = (Normal b, w2) →
  ∃ a w1, m w = (Normal a, w1) ∧ f a w1 = (Normal b, w2).
Proof.
  unfold mbind, JS_bind. destruct (m w) as [[a|e] w1]; [eauto | discriminate].
Qed.

Lemma Get_object l o k w :
  heap w !! l = Some o →
  Get (VObject l) k w
  = (Normal (default VUndefined (property_value <$> o !! k)), w).
Proof. intros Hl. unfold Get. by rewrite Hl. Qed.

Lemma Delete_object l o k w :
  heap w !! l = Some o →
  Delete (VObject l) k w
  = if removable o k
    then (Normal (),
          {| heap := alter (delete k) l (heap w); requests := requests w |})
    else (Throw TypeError, w).
Proof. intros Hl. unfold Delete. by rewrite Hl. Qed.

Lemma parseOptions_Normal opts key w r h :
  parseOptions opts key (heap w) = (Normal r, h) →
  jiraClient_parseOptions opts key w
  = (Normal r, {| heap := h; requests := requests w |}).
Proof. intros Hp. unfold jiraClient_parseOptions. by rewrite Hp. Qed.

Lemma lookup_deleted l o k h :
  h !! l = Some o → alter (delete k) l h !! l = Some (delete k o).
Proof. intros Hl. by rewrite lookup_alter_eq, Hl. Qed.

Lemma delete_absent l o k h :
  h !! l = Some o → o !! k = None → alter (delete k) l h = h.
Proof.
  intros Hl Hk. apply map_eq. intros l'.
  destruct (decide (l' = l)) as [->|Hne].
  - rewrite lookup_alter_eq, Hl. simpl. f_equal. by apply delete_id.
  - by rewrite lookup_alter_ne.
Qed.

Lemma removable_absent o k : o !! k = None → removable o k = true.
Proof. intros Hk. unfold removable. by rewrite Hk. Qed.

Lemma world_eta w : {| heap := heap w; requests := requests w |} = w.
Proof. by destruct w. Qed.

(** ** Paths *)

Lemma append_nil_r (s : string) : s +:+ "" = s.
Proof. induction s as [|c s IH]; [done|]. cbv [String.append]. by f_equal. Qed.

Lemma append_assoc (a b c : string) : (a +:+ b) +:+ c = a +:+ (b +:+ c).
Proof.
  induction a as [|x a IH]; [done|].
  change (String x ((a +:+ b) +:+ c) = String x (a +:+ (b +:+ c))). by f_equal.
Qed.

Lemma placeholder_free_app (a b : string) :
  placeholder_free (a +:+ b) = placeholder_free a && placeholder_free b.
Proof.
  induction a as [|x a IH]; [done|].
  change (placeholder_free (String x (a +:+ b))
          = placeholder_free (String x a) && placeholder_free b).
  simpl. rewrite IH. by rewrite !andb_assoc.
Qed.

(** The templates of the table leave no placeholder once the identifier's
    text has none. *)
Lemma substitute_placeholder_free op (id : string) :
  placeholder_free id = true →
  placeholder_free (substitute id (path_template op)) = true.
Proof.
  intros Hid. destruct op; cbn [path_template substitute];
    rewrite ?placeholder_free_app, ?Hid; reflexivity.
Qed.

(** The concatenations the operations write are the templates filled in. *)
Lemma path_one (id : string) (op : operation) :
  path_template op = [Lit "/sprint/"; Id] →
  "/sprint/" +:+ id = substitute id (path_template op).
Proof. intros ->. cbn [substitute]. by rewrite append_nil_r. Qed.

Lemma path_two (id suffix : string) (op : operation) :
  path_template op = [Lit "/sprint/"; Id; Lit suffix] →
  ("/sprint/" +:+ id) +:+ suffix = substitute id (path_template op).
Proof.
  intros ->. cbn [substitute]. by rewrite append_nil_r, append_assoc.
Qed.

(** The template of [createSprint] has no place for an identifier. *)
Lemma substitute_no_identifier op (id id' : string) :
  source_of op = NoIdentifier →
  substitute id (path_template op) = substitute id' (path_template op).
Proof. by destruct op. Qed.

(** ** What an operation does with the object that carries the identifier *)

(** The four operations that delete the identifier do the same three
    things to the object that carries it; the second one fails when the
    property is not configurable. *)
Lemma extract_identifier l o w (f : string → descriptor number) :
  heap w !! l = Some o →
  (sprintId ← Get (VObject l) "sprintId";
   _ ← Delete (VObject l) "sprintId";
   path ← Plus "/sprint/" sprintId;
   mret (f path)) w
  = if removable o "sprintId"
    then
      let w' := {| heap := alter (delete "sprintId") l (heap w);
                   requests := requests w |} in
      (Normal (f ("/sprint/"
                  +:+ ToString (heap w')
                        (default VUndefined
                           (property_value <$> o !! "sprintId")))), w')
    else (Throw TypeError, w).
Proof.
  intros Hl. rewrite (bind_Normal _ _ _ _ _ (Get_object _ _ _ _ Hl)).
  unfold mbind at 1, JS_bind at 1. rewrite (Delete_object _ _ _ _ Hl).
  by destruct (removable o "sprintId").
Qed.

(** The store an operation leaves when it builds its descriptor from the
    store [h]: the same store, or, for the operations that delete the
    identifier, [h] with [sprintId] removed from the object at [l]. *)
Lemma outcome_of_carrier op opts w l o h :
  carrier op opts w l o h →
  if identifier_locked op o
  then options_of op opts w
       = (Throw TypeError, {| heap := h; requests := requests w |})
  else
    let h' := if identifier_in_body op
              then alter (delete "sprintId") l h else h in
    ∃ d,
      options_of op opts w = (Normal d, {| heap := h'; requests := requests w |})
      ∧ uri d = buildAgileURL
                  (substitute
                     (ToString h'
                        (default VUndefined
                           (property_value <$> o !! "sprintId")))
                     (path_template op))
      ∧ method d = method_table op
      ∧ (identifier_in_body op = true → body d = Some (VObject l)).
Proof.
  intros Hc. unfold carrier in Hc. unfold identifier_locked.
  destruct op; simpl in Hc; simpl.
  - (* createSprint *)
    destruct Hc as (r & Hp). unfold createSprint_options.
    rewrite (bind_Normal _ _ _ _ _ (parseOptions_Normal _ _ _ _ _ Hp)).
    by eexists.
  - (* getSprint *)
    destruct Hc as (-> & -> & Hl).
    unfold getSprint_options, mbind, JS_bind, Get, Plus. rewrite Hl. simpl.
    rewrite world_eta. eexists. split; [reflexivity|]. simpl.
    by rewrite (path_one _ GetSprint).
  - (* updateSprint *)
    destruct Hc as (r & Hp & Hb & Hl). unfold updateSprint_options.
    rewrite (bind_Normal _ _ _ _ _ (parseOptions_Normal _ _ _ _ _ Hp)), Hb.
    rewrite (extract_identifier l o); [|done].
    destruct (removable o "sprintId"); simpl; [|done].
    eexists. split; [reflexivity|]. simpl.
    by rewrite (path_one _ UpdateSprint).
  - (* partiallyUpdateSprint *)
    destruct Hc as (r & Hp & Hb & Hl). unfold partiallyUpdateSprint_options.
    rewrite (bind_Normal _ _ _ _ _ (parseOptions_Normal _ _ _ _ _ Hp)), Hb.
    rewrite (extract_identifier l o); [|done].
    destruct (removable o "sprintId"); simpl; [|done].
    eexists. split; [reflexivity|]. simpl.
    by rewrite (path_one _ PartiallyUpdateSprint).
  - (* deleteSprint *)
    destruct Hc as (-> & -> & Hl).
    unfold deleteSprint_options, mbind, JS_bind, Get, Plus. rewrite Hl. simpl.
    rewrite world_eta. eexists. split; [reflexivity|]. simpl.
    by rewrite (path_one _ DeleteSprint).
  - (* getSprintIssues *)
    destruct Hc as (-> & -> & Hl).
    unfold getSprintIssues_options, mbind, JS_bind, Get, Plus. rewrite Hl. simpl.
    rewrite world_eta. eexists. split; [reflexivity|]. simpl.
    by rewrite (path_two _ "/issue" GetSprintIssues).
  - (* moveSprintIssues *)
    destruct Hc as (-> & -> & Hl). unfold moveSprintIssues_options.
    rewrite (extract_identifier l o); [|done].
    destruct (removable o "sprintId"); simpl; [|by rewrite world_eta].
    eexists. split; [reflexivity|]. simpl.
    by rewrite (path_two _ "/issue" MoveSprintIssues).
  - (* swapSprint *)
    destruct Hc as (r & Hp & Hb & Hl). unfold swapSprint_options.
    rewrite (bind_Normal _ _ _ _ _ (parseOptions_Normal _ _ _ _ _ Hp)), Hb.
    rewrite (extract_identifier l o); [|done].
    destruct (removable o "sprintId"); simpl; [|done].
    eexists. split; [reflexivity|]. simpl.
    by rewrite (path_two _ "/swap" SwapSprint).
Qed.

(** The object that carries the identifier is in the store. *)
Lemma carrier_lookup op opts w l o h :
  source_of op ≠ NoIdentifier → carrier op opts w l o h → h !! l = Some o.
Proof.
  intros Hsrc Hc. unfold carrier in Hc.
  destruct (source_of op); [done| |].
  - by destruct Hc as (_ & _ & ?).
  - by destruct Hc as (? & _ & _ & ?).
Qed.

(** ** The body of the write operations *)

(** C1, as the code has it.  For the write operations that carry the
    sprint identifier inside the payload (updateSprint,
    partiallyUpdateSprint, moveSprintIssues, swapSprint) and every options
    object whose [sprintId] can be deleted (it is absent or configurable),
    the operation builds a descriptor whose body is the object that
    carried the identifier; in the store the operation leaves, that object
    has no [sprintId] key and every other key is as it was.  When
    [sprintId] is not configurable, as in a frozen object, the deletion
    throws a TypeError: no descriptor is built and the object keeps the
    key. *)
Theorem body_without_identifier op opts w l o h :
  identifier_in_body op = true →
  carrier op opts w l o h →
  if removable o "sprintId"
  then
    ∃ d w' o',
      options_of op opts w = (Normal d, w')
      ∧ body d = Some (VObject l)
      ∧ heap w' !! l = Some o'
      ∧ o' !! "sprintId" = None
      ∧ ∀ k, k ≠ "sprintId" → o' !! k = o !! k
  else
    options_of op opts w
    = (Throw TypeError, {| heap := h; requests := requests w |})
    ∧ h !! l = Some o.
Proof.
  intros Hop Hc.
  assert (h !! l = Some o) as Hl.
  { apply (carrier_lookup op opts w); [by destruct op|done]. }
  pose proof (outcome_of_carrier _ _ _ _ _ _ Hc) as Hout.
  unfold identifier_locked in Hout. rewrite Hop in Hout. simpl in Hout.
  destruct (removable o "sprintId"); simpl in Hout; [|done].
  destruct Hout as (d & Hd & _ & _ & Hb).
  eexists d, _, (delete "sprintId" o). split; [exact Hd|]. simpl.
  split; [by apply Hb|]. split; [by apply lookup_deleted|].
  split; [apply lookup_delete_eq|]. intros k Hk. by apply lookup_delete_ne.
Qed.

(** ** Effects on the caller's options object *)

(** C7, as the code has it.  [moveSprintIssues] works on the caller's own
    options object.  When its [sprintId] can be deleted (it is absent or
    configurable), the call deletes the key in place and keeps every other
    key as it was, touches no other object, and uses that same object, not
    a copy, as the descriptor's body.  When [sprintId] is not
    configurable, as in a frozen object, the call throws a TypeError,
    changes nothing and makes no request. *)
Theorem moveSprintIssues_mutates_options l o w callback :
  heap w !! l = Some o →
  if removable o "sprintId"
  then
    ∃ d w' o',
      moveSprintIssues_options (VObject l) w = (Normal d, w')
      ∧ heap w' !! l = Some o'
      ∧ o' !! "sprintId" = None
      ∧ (∀ k, k ≠ "sprintId" → o' !! k = o !! k)
      ∧ (∀ l', l' ≠ l → heap w' !! l' = heap w !! l')
      ∧ body d = Some (VObject l)
      ∧ suppliedOptions d = VObject l
  else
    moveSprintIssues_options (VObject l) w = (Throw TypeError, w)
    ∧ moveSprintIssues (VObject l) callback w = (Throw TypeError, w).
Proof.
  intros Hl. unfold moveSprintIssues, moveSprintIssues_options.
  destruct (removable o "sprintId") eqn:Hrem.
  - rewrite (extract_identifier l o), Hrem; [|done]. simpl.
    eexists _, _, (delete "sprintId" o). split; [reflexivity|]. simpl.
    split; [by apply lookup_deleted|].
    split; [apply lookup_delete_eq|].
    split; [intros k Hk; by apply lookup_delete_ne|].
    split; [|done]. intros l' Hl'. by apply lookup_alter_ne.
  - assert (∀ f : string → descriptor number,
      (sprintId ← Get (VObject l) "sprintId";
       _ ← Delete (VObject l) "sprintId";
       path ← Plus "/sprint/" sprintId;
       mret (f path)) w = (Throw TypeError, w)) as Hthrow.
    { intros f. by rewrite (extract_identifier l o), Hrem. }
    split; [apply Hthrow|].
    apply (bind_Throw _ _ _ _ _ (Hthrow _)).
Qed.

(** C8. [getSprint], [deleteSprint] and [getSprintIssues] build their
    descriptor without any effect: whatever the options, the world after
    the descriptor is built (or the construction has thrown) is the world
    before, so the caller's options object has the same keys with the same
    values, and so has every other object. *)
Theorem read_operations_leave_options opts w :
  (getSprint_options opts w).2 = w
  ∧ (deleteSprint_options opts w).2 = w
  ∧ (getSprintIssues_options opts w).2 = w.
Proof. by destruct opts. Qed.

(** ** The query of the read operations *)

(** C3. For [getSprint], [deleteSprint] and [getSprintIssues] and every
    options object, whichever of the optional fields it supplies, the
    descriptor's query has exactly the declared keys of the operation,
    each bound to the value the options give it, [undefined] when they
    give none; and the descriptor has no body. *)
Theorem query_has_declared_keys op l o w :
  reads_query op = true →
  heap w !! l = Some o →
  ∃ d q,
    options_of op (VObject l) w = (Normal d, w)
    ∧ qs d = Some q
    ∧ dom q = declared_query op
    ∧ (∀ k, k ∈ declared_query op →
         q !! k = Some (default VUndefined (property_value <$> o !! k)))
    ∧ body d = None.
Proof.
  intros Hop Hl.
  destruct op; try discriminate Hop; simpl;
    [unfold getSprint_options | unfold deleteSprint_options
     | unfold getSprintIssues_options];
    unfold mbind, JS_bind, Get, Plus; rewrite Hl; simpl;
    (eexists _, _; split; [reflexivity|]; simpl; split; [reflexivity|];
     split; [rewrite !dom_insert_L, dom_singleton_L; set_solver|];
     split; [|done]; intros k Hk; set_unfold in Hk;
     destruct_or!; subst k; by simplify_map_eq).
Qed.

(** ** Transport flags *)

(** C10. Every descriptor built by any of the eight operations has [json]
    and [followAllRedirects] set to true, whatever the options. *)
Theorem descriptor_flags op opts w d w' :
  options_of op opts w = (Normal d, w') →
  json d = true ∧ followAllRedirects d = true.
Proof.
  destruct op; simpl; intros Hd;
    repeat (apply bind_Normal_inv in Hd as (? & ? & _ & Hd));
    by inversion Hd.
Qed.

(** ** Full and partial update *)

(** C9. On every options object [updateSprint] and [partiallyUpdateSprint]
    behave alike: both fail with the same exception, or both build a
    descriptor, leaving the same store, and the two descriptors agree on
    [uri], [qs], [body], both flags and [suppliedOptions], while the
    method is PUT for the one and POST for the other. *)
Theorem update_and_partial_update_agree opts w :
  match updateSprint_options opts w, partiallyUpdateSprint_options opts w with
  | (Normal d1, w1), (Normal d2, w2) =>
      w1 = w2 ∧ method d1 = "PUT" ∧ method d2 = "POST"
      ∧ uri d1 = uri d2 ∧ qs d1 = qs d2 ∧ body d1 = body d2
      ∧ json d1 = json d2 ∧ followAllRedirects d1 = followAllRedirects d2
      ∧ suppliedOptions d1 = suppliedOptions d2
  | (Throw e1, w1), (Throw e2, w2) => e1 = e2 ∧ w1 = w2
  | _, _ => False
  end.
Proof.
  unfold updateSprint_options, partiallyUpdateSprint_options,
    mbind, JS_bind, jiraClient_parseOptions.
  destruct (parseOptions opts (VString "sprint") (heap w)) as [[r|e] h]; [|done].
  destruct (parsed_body r); try done.
  unfold Get, Delete. simpl. by destruct (removable _ _).
Qed.

(** ** The URL and the method *)

(** C2. For every operation and every options object that supplies an
    identifier, the [uri] of the descriptor the operation builds is the
    URL resolver applied to the operation's path template with the text
    of the identifier in the place of the placeholder, and its method is
    the one of the operation table.  The path keeps no placeholder: it has
    no brace unless the identifier's own text has one.  The descriptor is
    built unless the operation has to delete a [sprintId] that is not
    configurable; then the deletion throws and there is no descriptor. *)
Theorem uri_and_method op opts w l o h id :
  carrier op opts w l o h →
  (source_of op ≠ NoIdentifier →
   property_value <$> o !! "sprintId" = Some id) →
  (∀ d w',
     options_of op opts w = (Normal d, w') →
     uri d = buildAgileURL
               (substitute (ToString (heap w') id) (path_template op))
     ∧ method d = method_table op
     ∧ (placeholder_free (ToString (heap w') id) = true →
        placeholder_free
          (substitute (ToString (heap w') id) (path_template op)) = true))
  ∧ (if identifier_locked op o
     then options_of op opts w
          = (Throw TypeError, {| heap := h; requests := requests w |})
     else ∃ d w', options_of op opts w = (Normal d, w')).
Proof.
  intros Hc Hid.
  pose proof (outcome_of_carrier _ _ _ _ _ _ Hc) as Hout.
  destruct (identifier_locked op o).
  { split; [|done]. intros d w' Hd. by rewrite Hout in Hd. }
  simpl in Hout. destruct Hout as (d & Hd & Huri & Hm & _).
  split; [|by eauto]. intros d' w' Hd'. rewrite Hd in Hd'.
  injection Hd' as <- <-. simpl.
  assert (uri d = buildAgileURL
            (substitute
               (ToString
                  (if identifier_in_body op
                   then alter (delete "sprintId") l h else h) id)
               (path_template op))) as Huri'.
  { rewrite Huri. f_equal. destruct (source_of op) eqn:Hs.
    - by apply substitute_no_identifier.
    - by rewrite Hid.
    - by rewrite Hid. }
  split; [done|]. split; [done|]. apply substitute_placeholder_free.
Qed.

(** ** Options without an identifier *)

(** C4, as the code has it.  When an operation needs the identifier and
    the object it takes it from has no [sprintId] key, the operation
    signals no failure: it builds a descriptor whose [uri] is the resolver
    applied to the path template with the text [undefined] in the place
    of the identifier. *)
Theorem missing_identifier_builds_undefined_path op opts w :
  lacks_identifier op opts w →
  ¬ signals_failure (options_of op opts w)
  ∧ ∃ d w',
      options_of op opts w = (Normal d, w')
      ∧ uri d = buildAgileURL (substitute "undefined" (path_template op))
      ∧ method d = method_table op.
Proof.
  intros (_ & l & o & h & Hc & Hid).
  pose proof (outcome_of_carrier _ _ _ _ _ _ Hc) as Hout.
  unfold identifier_locked in Hout.
  rewrite (removable_absent _ _ Hid), andb_false_r in Hout. simpl in Hout.
  destruct Hout as (d & Hd & Huri & Hm & _).
  rewrite Hid in Huri. split; [|by eauto].
  intros (e & He). by rewrite Hd in He.
Qed.

(** ** Handing over to the transport *)

(** Building a descriptor makes no request. *)
Lemma options_of_requests op opts w :
  requests (options_of op opts w).2 = requests w.
Proof.
  destruct op; simpl;
    first
      [ by destruct opts
      | unfold moveSprintIssues_options, mbind, JS_bind, Get, Delete;
        destruct opts; try done; simpl; by destruct (removable _ _)
      | unfold createSprint_options, updateSprint_options,
          partiallyUpdateSprint_options, swapSprint_options,
          mbind, JS_bind, jiraClient_parseOptions;
        destruct (parseOptions opts _ (heap w)) as [[r|e] h]; [|done];
        simpl; try done; destruct (parsed_body r); try done;
        unfold Get, Delete; simpl; by destruct (removable _ _) ].
Qed.

(** Every public method is its descriptor followed by one call of
    [makeRequest]. *)
Lemma invoke_unfold op opts callback :
  invoke op opts callback
  = (options ← options_of op opts; jiraClient_makeRequest options callback).
Proof. by destruct op. Qed.

(** An operation whose descriptor cannot be built throws what the
    construction threw and makes no request. *)
Lemma invoke_Throw op opts callback w e w1 :
  options_of op opts w = (Throw e, w1) →
  invoke op opts callback w = (Throw e, w1) ∧ requests w1 = requests w.
Proof.
  intros Hd. rewrite invoke_unfold, (bind_Throw _ _ _ _ _ Hd).
  split; [done|]. by rewrite <-(options_of_requests op opts w), Hd.
Qed.

(** An operation whose descriptor is built hands it to the transport
    together with the callback, once, and returns the transport's answer. *)
Lemma invoke_Normal op opts callback w d w1 :
  options_of op opts w = (Normal d, w1) →
  (invoke op opts callback w).1 = (makeRequest d callback (heap w1)).1
  ∧ heap (invoke op opts callback w).2 = (makeRequest d callback (heap w1)).2
  ∧ requests (invoke op opts callback w).2 = requests w ++ [(d, callback)].
Proof.
  intros Hd.
  assert (requests w1 = requests w) as Hreq.
  { by rewrite <-(options_of_requests op opts w), Hd. }
  rewrite invoke_unfold, (bind_Normal _ _ _ _ _ Hd).
  unfold jiraClient_makeRequest.
  destruct (makeRequest d callback (heap w1)) as [r h2]. simpl.
  by rewrite Hreq.
Qed.

(** C6. Every operation takes a callback, which may be [undefined],
    besides its options.  Whenever it builds its descriptor it calls the
    transport exactly once, with that descriptor and the callback as
    given, and returns what the transport returns; with a transport that
    keeps its contract, a callback that was passed is therefore invoked
    with the outcome the returned deferred settles with.  Called on an
    options object (for the payload operations, on options whose payload
    parses to an object), the operation does build its descriptor, unless
    it has to delete a [sprintId] that is not configurable: then it throws
    a TypeError and the transport is not called. *)
Theorem callback_forwarded_once op opts callback w l o h :
  carrier op opts w l o h →
  (∀ d w1,
     options_of op opts w = (Normal d, w1) →
     (invoke op opts callback w).1 = (makeRequest d callback (heap w1)).1
     ∧ heap (invoke op opts callback w).2
       = (makeRequest d callback (heap w1)).2
     ∧ requests (invoke op opts callback w).2 = requests w ++ [(d, callback)]
     ∧ (dual_dispatch →
        ∀ f p,
          callback = VObject f →
          (invoke op opts callback w).1 = Normal p →
          notified p = [(callback, settled p)]))
  ∧ (if identifier_locked op o
     then invoke op opts callback w
          = (Throw TypeError, {| heap := h; requests := requests w |})
     else ∃ d w1, options_of op opts w = (Normal d, w1)).
Proof.
  intros Hc. split.
  - intros d w1 Hd.
    destruct (invoke_Normal op opts callback w d w1 Hd) as (Hr & Hh & Hq).
    repeat (split; [done|]).
    intros Hdual f p -> Hp. rewrite Hr in Hp.
    destruct (makeRequest d (VObject f) (heap w1)) as [r h2] eqn:Hm.
    simpl in Hp. subst r. by eapply Hdual.
  - pose proof (outcome_of_carrier _ _ _ _ _ _ Hc) as Hout.
    destruct (identifier_locked op o).
    + by apply invoke_Throw.
    + simpl in Hout. destruct Hout as (d & Hd & _). eauto.
Qed.


(** ** Structurally identical options *)

Section Structural.
Variable R : loc → loc → Prop.
Hypothesis R_bijection : partial_bijection R.
Hypothesis Object_toString_respects : Object_toString_structural.

Lemma same_run_bind {A B} (P : A → A → Prop) (Q : B → B → Prop)
    (m1 m2 : JS number A) (f1 f2 : A → JS number B) w1 w2 :
  same_run R P (m1 w1) (m2 w2) →
  (∀ a1 a2 v1 v2, P a1 a2 → same_store R (heap v1) (heap v2) →
     same_run R Q (f1 a1 v1) (f2 a2 v2)) →
  same_run R Q ((m1 ≫= f1) w1) ((m2 ≫= f2) w2).
Proof.
  unfold mbind, JS_bind, same_run.
  destruct (m1 w1) as [[a1|e1] v1], (m2 w2) as [[a2|e2] v2]; simpl;
    intros [Hc Hs] Hf; try done. by apply Hf.
Qed.

Lemma same_run_ret {A} (P : A → A → Prop) (a1 a2 : A) w1 w2 :
  P a1 a2 → same_store R (heap w1) (heap w2) →
  same_run R P ((mret a1 : JS number A) w1) ((mret a2 : JS number A) w2).
Proof. by split. Qed.

Lemma Get_structural v1 v2 k w1 w2 :
  same_value R v1 v2 → same_store R (heap w1) (heap w2) →
  same_run R (same_value R) (Get v1 k w1) (Get v2 k w2).
Proof.
  intros Hv Hs. destruct Hv as [| |b|n|s|a b Hab]; try (split; [constructor|done]);
    try done.
  split; [|done]. simpl.
  specialize (Hs a b Hab).
  destruct Hs as [o1 o2 Ho|]; simpl; [|constructor].
  specialize (Ho k). destruct Ho as [p1 p2 [Hp _]|]; simpl; [done|constructor].
Qed.

Lemma same_table_removable o1 o2 k :
  same_table R o1 o2 → removable o1 k = removable o2 k.
Proof.
  intros Ho. unfold removable. specialize (Ho k).
  by destruct Ho as [p1 p2 [_ Hp]|].
Qed.

Lemma same_table_delete o1 o2 k :
  same_table R o1 o2 → same_table R (delete k o1) (delete k o2).
Proof.
  intros Ho k'. destruct (decide (k = k')) as [->|Hk].
  - rewrite !lookup_delete_eq. constructor.
  - rewrite !lookup_delete_ne by done. apply Ho.
Qed.

Lemma same_table_empty :
  same_table R (∅ : gmap string (property number)) ∅.
Proof. intros k. rewrite lookup_empty. constructor. Qed.

Lemma Delete_structural v1 v2 k w1 w2 :
  same_value R v1 v2 → same_store R (heap w1) (heap w2) →
  same_run R (λ _ _, True) (Delete v1 k w1) (Delete v2 k w2).
Proof.
  intros Hv Hs. destruct Hv as [| |b|n|s|a b Hab]; try done.
  unfold Delete.
  assert (same_table R (default ∅ (heap w1 !! a)) (default ∅ (heap w2 !! b)))
    as Hab'.
  { destruct (Hs a b Hab); simpl; [done|apply same_table_empty]. }
  rewrite (same_table_removable _ _ k Hab').
  destruct (removable (default ∅ (heap w2 !! b)) k); [|done].
  split; [done|]. simpl. intros a' b' Hab''.
  destruct R_bijection as [Hfun Hinj].
  destruct (decide (a' = a)) as [->|Ha].
  - rewrite (Hfun _ _ _ Hab'' Hab), !lookup_alter_eq.
    destruct (Hs a b Hab); simpl; constructor. by apply same_table_delete.
  - assert (b' ≠ b) as Hb.
    { intros ->. apply Ha. by eapply Hinj. }
    rewrite !lookup_alter_ne by done. by apply Hs.
Qed.

Lemma ToString_structural v1 v2 h1 h2 :
  same_value R v1 v2 → same_store R h1 h2 → ToString h1 v1 = ToString h2 v2.
Proof.
  intros Hv Hs. destruct Hv; try done. simpl.
  by eapply Object_toString_respects.
Qed.

Lemma Plus_structural s v1 v2 w1 w2 :
  same_value R v1 v2 → same_store R (heap w1) (heap w2) →
  same_run R eq (Plus s v1 w1) (Plus s v2 w2).
Proof.
  intros Hv Hs. split; [|done]. simpl. f_equal. by apply ToString_structural.
Qed.

Lemma same_query_empty : same_query R (∅ : gmap string (value number)) ∅.
Proof. intros k. rewrite lookup_empty. constructor. Qed.

Lemma same_query_insert k v1 v2 (q1 q2 : gmap string (value number)) :
  same_value R v1 v2 → same_query R q1 q2 →
  same_query R (<[k:=v1]> q1) (<[k:=v2]> q2).
Proof.
  intros Hv Ho k'. destruct (decide (k = k')) as [->|Hk].
  - rewrite !lookup_insert_eq. by constructor.
  - rewrite !lookup_insert_ne by done. apply Ho.
Qed.

(** Objects written as literals with corresponding values correspond. *)
Lemma same_table_plain (q1 q2 : gmap string (value number)) :
  same_query R q1 q2 → same_table R (plain q1) (plain q2).
Proof.
  intros Hq k. unfold plain. rewrite !lookup_fmap.
  destruct (Hq k); simpl; constructor. by split.
Qed.

End Structural.

Lemma parseOptions_run (R : loc → loc → Prop) opts1 opts2 key w1 w2 :
  same_completion R (same_parsed R)
    (parseOptions opts1 key (heap w1)).1 (parseOptions opts2 key (heap w2)).1 →
  same_store R
    (parseOptions opts1 key (heap w1)).2 (parseOptions opts2 key (heap w2)).2 →
  same_run R (same_parsed R)
    (jiraClient_parseOptions opts1 key w1) (jiraClient_parseOptions opts2 key w2).
Proof.
  unfold jiraClient_parseOptions.
  destruct (parseOptions opts1 key (heap w1)) as [r1 h1],
    (parseOptions opts2 key (heap w2)) as [r2 h2]. by split.
Qed.

(** Two runs of the same code followed side by side, statement by
    statement, down to the two object literals. *)
Ltac side_by_side R :=
  repeat (eapply (same_run_bind R);
          [ first [ by apply (Get_structural R)
                  | by apply (Delete_structural R)
                  | by apply (Plus_structural R) ]
          | intros ]);
  apply (same_run_ret R); [|done];
  unfold same_descriptor; simpl; subst;
  repeat split; try done; try (by constructor);
  apply Some_Forall2;
  repeat (apply same_query_insert; [done|]);
  apply same_query_empty.

(** C5. On two structurally identical options objects, distinct or not,
    every operation builds structurally identical descriptors (equal
    [uri], method and flags; [qs], [body] and [suppliedOptions] equal up
    to the identity of the objects) and leaves structurally identical
    stores, provided the two collaborators the construction calls,
    [parseOptions] and the conversion of objects to strings, depend on
    structure only. *)
Theorem structurally_identical_options op R opts1 opts2 w1 w2 :
  partial_bijection R →
  same_store R (heap w1) (heap w2) →
  same_value R opts1 opts2 →
  Object_toString_structural →
  parseOptions_structural →
  ∃ R', partial_bijection R'
        ∧ same_run R' (same_descriptor R')
            (options_of op opts1 w1) (options_of op opts2 w2).
Proof.
  intros HR Hs Hopts Hobj Hparse.
  destruct (source_of op) eqn:Hsrc.
  - (* createSprint *)
    destruct op; try discriminate Hsrc. simpl. unfold createSprint_options.
    destruct (Hparse R _ _ _ _ VUndefined HR Hs Hopts) as (R' & HR' & Hc & Hs').
    exists R'. split; [done|].
    eapply (same_run_bind R'); [by apply parseOptions_run|].
    intros r1 r2 v1 v2 [Hso Hb] Hv. side_by_side R'.
  - (* the identifier is in the options *)
    exists R. split; [done|].
    destruct op; try discriminate Hsrc; simpl;
      [ unfold getSprint_options | unfold deleteSprint_options
      | unfold getSprintIssues_options | unfold moveSprintIssues_options ];
      side_by_side R.
  - (* the identifier is in the payload *)
    destruct (Hparse R _ _ _ _ (VString key) HR Hs Hopts)
      as (R' & HR' & Hc & Hs').
    exists R'. split; [done|].
    destruct op; try discriminate Hsrc; simpl in Hsrc; simplify_eq; simpl;
      [ unfold updateSprint_options | unfold partiallyUpdateSprint_options
      | unfold swapSprint_options ];
      (eapply (same_run_bind R'); [by apply parseOptions_run|]);
      intros r1 r2 v1 v2 [Hso Hb] Hv; side_by_side R'.
Qed.


(** * Further properties of the operations *)

(** ** Failures *)

(** X1. Called on [undefined] or [null] instead of an options object,
    [getSprint], [deleteSprint], [getSprintIssues] and [moveSprintIssues]
    throw a TypeError at once: no request is made and nothing in the
    world changes. *)
Theorem nullish_options_throw op opts callback w :
  source_of op = FromOptions →
  nullish opts = true →
  invoke op opts callback w = (Throw TypeError, w).
Proof.
  intros Hsrc Hn.
  destruct op; try discriminate Hsrc; by destruct opts.
Qed.

(** X2. When [parseOptions] returns normally but with a body that is
    [undefined] or [null], [updateSprint], [partiallyUpdateSprint] and
    [swapSprint] throw a TypeError: no request is made, and the store is
    the one [parseOptions] left. *)
Theorem nullish_payload_throws op key opts callback w r h :
  source_of op = FromPayload key →
  parseOptions opts (VString key) (heap w) = (Normal r, h) →
  nullish (parsed_body r) = true →
  invoke op opts callback w
  = (Throw TypeError, {| heap := h; requests := requests w |}).
Proof.
  intros Hsrc Hp Hn.
  destruct op; try discriminate Hsrc; simpl in Hsrc; simplify_eq; simpl;
    [ unfold updateSprint, updateSprint_options
    | unfold partiallyUpdateSprint, partiallyUpdateSprint_options
    | unfold swapSprint, swapSprint_options ];
    unfold mbind, JS_bind, jiraClient_parseOptions; rewrite Hp;
    by destruct (parsed_body r).
Qed.

(** X3. An exception raised by [parseOptions] leaves [createSprint],
    [updateSprint], [partiallyUpdateSprint] and [swapSprint] as it is: the
    operation throws the same exception, makes no request, and the store
    is the one [parseOptions] left. *)
Theorem parseOptions_failure_propagates op key opts callback w e h :
  parse_argument op = Some key →
  parseOptions opts key (heap w) = (Throw e, h) →
  invoke op opts callback w
  = (Throw e, {| heap := h; requests := requests w |}).
Proof.
  intros Hk Hp.
  destruct op; try discriminate Hk; simpl in Hk; simplify_eq; simpl;
    [ unfold createSprint, createSprint_options
    | unfold updateSprint, updateSprint_options
    | unfold partiallyUpdateSprint, partiallyUpdateSprint_options
    | unfold swapSprint, swapSprint_options ];
    unfold mbind, JS_bind, jiraClient_parseOptions; by rewrite Hp.
Qed.

(** X12. Every call makes at most one request.  If the descriptor cannot
    be built the operation throws what the construction threw and the
    transport is not called; otherwise the transport is called once, and
    the request is on record whether the transport returns or throws. *)
Theorem at_most_one_request op opts callback w :
  match options_of op opts w with
  | (Normal d, w1) =>
      requests (invoke op opts callback w).2 = requests w ++ [(d, callback)]
      ∧ (∀ e, (makeRequest d callback (heap w1)).1 = Throw e →
              (invoke op opts callback w).1 = Throw e)
  | (Throw e, w1) =>
      invoke op opts callback w = (Throw e, w1) ∧ requests w1 = requests w
  end.
Proof.
  destruct (options_of op opts w) as [[d|e] w1] eqn:Hd.
  - destruct (invoke_Normal op opts callback w d w1 Hd) as (Hr & _ & Hq).
    split; [done|]. intros e He. by rewrite Hr.
  - by apply invoke_Throw.
Qed.

(** ** The store the write operations leave *)

(** X4. [createSprint] forwards what [parseOptions] returns and touches
    nothing: the descriptor's body and [suppliedOptions] are the parsed
    ones, it has no query, and the store is the one [parseOptions] left,
    so a [sprintId] in the payload of a creation stays in it. *)
Theorem createSprint_forwards_payload opts w r h :
  parseOptions opts VUndefined (heap w) = (Normal r, h) →
  ∃ d,
    createSprint_options opts w
    = (Normal d, {| heap := h; requests := requests w |})
    ∧ body d = Some (parsed_body r)
    ∧ suppliedOptions d = parsed_suppliedOptions r
    ∧ qs d = None.
Proof.
  intros Hp. unfold createSprint_options.
  rewrite (bind_Normal _ _ _ _ _ (parseOptions_Normal _ _ _ _ _ Hp)).
  by eexists.
Qed.

(** X5. A write operation that deletes the identifier changes one object
    only: relative to the store it read the identifier in, every object
    other than the one that carried the identifier is as it was, and no
    request is made by building the descriptor. *)
Theorem extraction_touches_one_object op opts w l o h :
  identifier_in_body op = true →
  carrier op opts w l o h →
  (∀ l', l' ≠ l → heap (options_of op opts w).2 !! l' = h !! l')
  ∧ requests (options_of op opts w).2 = requests w.
Proof.
  intros Hop Hc.
  pose proof (outcome_of_carrier _ _ _ _ _ _ Hc) as Hout.
  rewrite Hop in Hout. destruct (identifier_locked op o).
  - by rewrite Hout.
  - simpl in Hout. destruct Hout as (d & -> & _). simpl.
    split; [|done]. intros l' Hne. by apply lookup_alter_ne.
Qed.

(** X6. When the object the identifier is taken from has no [sprintId]
    key, deleting the key changes nothing: the write operation leaves the
    very store it read the object in. *)
Theorem extraction_without_identifier op opts w l o h :
  identifier_in_body op = true →
  carrier op opts w l o h →
  o !! "sprintId" = None →
  heap (options_of op opts w).2 = h.
Proof.
  intros Hop Hc Hid.
  assert (h !! l = Some o) as Hl.
  { apply (carrier_lookup op opts w); [by destruct op|done]. }
  pose proof (outcome_of_carrier _ _ _ _ _ _ Hc) as Hout.
  unfold identifier_locked in Hout.
  rewrite Hop, (removable_absent _ _ Hid) in Hout. simpl in Hout.
  destruct Hout as (d & -> & _). simpl. by apply (delete_absent l o).
Qed.

(** ** Reading and deleting a sprint *)

(** X8. On every options value [getSprint] and [deleteSprint] behave
    alike: both throw the same exception, or both build a descriptor
    without changing the world, and the two descriptors agree on [uri],
    [qs], [body], both flags and [suppliedOptions]; only the method
    differs, GET for the one and DELETE for the other. *)
Theorem getSprint_and_deleteSprint_agree opts w :
  match getSprint_options opts w, deleteSprint_options opts w with
  | (Normal d1, w1), (Normal d2, w2) =>
      w1 = w ∧ w2 = w ∧ method d1 = "GET" ∧ method d2 = "DELETE"
      ∧ uri d1 = uri d2 ∧ qs d1 = qs d2 ∧ body d1 = body d2
      ∧ json d1 = json d2 ∧ followAllRedirects d1 = followAllRedirects d2
      ∧ suppliedOptions d1 = suppliedOptions d2
  | (Throw e1, w1), (Throw e2, w2) => e1 = e2 ∧ w1 = w ∧ w2 = w
  | _, _ => False
  end.
Proof. by destruct opts. Qed.

(** ** Options that are not objects *)

(** X9. Options that are a boolean, a number or a string are not
    rejected by [getSprint], [deleteSprint], [getSprintIssues] and
    [moveSprintIssues]: every property reads as [undefined], so the
    descriptor has the path of the operation with the text [undefined]
    for the identifier, every key of its query (if it has one) is bound
    to [undefined], its body (if it has one) is the primitive itself, and
    the world is unchanged. *)
Theorem primitive_options_accepted op opts w :
  source_of op = FromOptions →
  primitive opts = true →
  ∃ d,
    options_of op opts w = (Normal d, w)
    ∧ uri d = buildAgileURL (substitute "undefined" (path_template op))
    ∧ suppliedOptions d = opts
    ∧ (∀ q, qs d = Some q → map_Forall (λ _ v, v = VUndefined) q)
    ∧ (∀ b, body d = Some b → b = opts).
Proof.
  intros Hsrc Hprim.
  destruct op; try discriminate Hsrc; destruct opts; try discriminate Hprim;
    (eexists; split; [reflexivity|]; simpl;
     split; [reflexivity|]; split; [reflexivity|];
     split; [|by intros ? [= <-]]; intros q [= <-];
     repeat (apply map_Forall_insert_2; [reflexivity|]);
     apply map_Forall_empty).
Qed.

(** ** What is not done to the identifier *)

(** X10. The identifier goes into the path as it is, without escaping:
    [getSprint] with the string [s ++ "/issue"] as identifier asks for the
    same URL as [getSprintIssues] with the identifier [s]. *)
Theorem identifier_not_escaped (s : string) l1 o1 l2 o2 w :
  heap w !! l1 = Some o1 →
  property_value <$> o1 !! "sprintId" = Some (VString (s +:+ "/issue")) →
  heap w !! l2 = Some o2 →
  property_value <$> o2 !! "sprintId" = Some (VString s) →
  ∃ d1 d2,
    getSprint_options (VObject l1) w = (Normal d1, w)
    ∧ getSprintIssues_options (VObject l2) w = (Normal d2, w)
    ∧ uri d1 = uri d2.
Proof.
  intros Hl1 Hid1 Hl2 Hid2.
  unfold getSprint_options, getSprintIssues_options, mbind, JS_bind, Get, Plus.
  rewrite Hl1, Hl2. simpl. rewrite Hid1, Hid2. simpl.
  eexists _, _. split; [reflexivity|]. split; [reflexivity|]. simpl.
  by rewrite append_assoc.
Qed.

(** ** Query or body *)

(** X11. A descriptor has a query or a body, never both and never
    neither: the three read and delete operations write [qs] and no
    [body], the five write operations write [body] and no [qs]. *)
Theorem query_or_body op opts w d w' :
  options_of op opts w = (Normal d, w') →
  if reads_query op
  then is_Some (qs d) ∧ body d = None
  else qs d = None ∧ is_Some (body d).
Proof.
  destruct op; simpl; intros Hd;
    repeat (apply bind_Normal_inv in Hd as (? & ? & _ & Hd));
    inversion Hd; by eauto.
Qed.


End Properties.
(** * The scenarios of the specification, run on the concrete client *)

Section Scenarios.

#[local] Existing Instance Sample.runtime.
#[local] Existing Instance Sample.jiraClient.

(** [getSprint({sprintId: 42, maxResults: 50})] *)
Example scenario_get :
  getSprint_options (VObject 1) Sample.world0
  = (Normal Sample.get_descriptor, Sample.world0).
Proof. reflexivity. Qed.

(** [updateSprint({data: {sprintId: 331, name: "Sprint 5"}})] *)
Example scenario_full_update :
  ∃ w',
    updateSprint_options (VObject 2) Sample.world0
    = (Normal {| uri := "https://jira.example.com/rest/agile/1.0/sprint/331";
                 method := "PUT";
                 json := true;
                 followAllRedirects := true;
                 suppliedOptions := VObject 2;
                 qs := None;
                 body := Some (VObject 3) |}, w')
    ∧ heap w' !! 3%positive = Some (plain {[ "name" := VString "Sprint 5" ]}).
Proof. eexists. split; reflexivity. Qed.

(** [moveSprintIssues({sprintId: 7, issues: ["ISS-1", "ISS-2"]})] *)
Example scenario_move_issues :
  ∃ w',
    moveSprintIssues_options (VObject 4) Sample.world0
    = (Normal {| uri := "https://jira.example.com/rest/agile/1.0/sprint/7/issue";
                 method := "POST";
                 json := true;
                 followAllRedirects := true;
                 suppliedOptions := VObject 4;
                 qs := None;
                 body := Some (VObject 4) |}, w')
    ∧ heap w' !! 4%positive = Some (plain {[ "issues" := VObject 5 ]})
    ∧ heap w' !! 5%positive = Some (plain Sample.issues).
Proof. eexists. repeat split; reflexivity. Qed.

(** Options that are not an object at all do fail, before any request. *)
Example scenario_no_options :
  getSprint VUndefined Sample.callback Sample.world0
  = (Throw TypeError, Sample.world0).
Proof. reflexivity. Qed.

(** [updateSprint({data: Object.freeze({sprintId: 331, name: "Sprint 5"})})]
    throws at the deletion and makes no request. *)
Example scenario_frozen_payload :
  updateSprint (VObject 3) Sample.callback Sample.world2
  = (Throw TypeError, Sample.world2).
Proof. reflexivity. Qed.

(** ** The theorems at the scenarios *)

(** C1, as the claim states it, fails:
    [moveSprintIssues(Object.freeze({sprintId: 7, issues: [...]}))] is a
    write operation on an options object that carries the identifier, yet
    there is no descriptor whose body lacks the key: the deletion throws
    and the object keeps [sprintId]. *)
Lemma frozen_options_keep_identifier :
  identifier_in_body MoveSprintIssues = true
  ∧ carrier MoveSprintIssues (VObject 1) Sample.world2 1
      (frozen (Sample.move_options 2)) Sample.store2
  ∧ options_of MoveSprintIssues (VObject 1) Sample.world2
    = (Throw TypeError, Sample.world2)
  ∧ (¬ ∃ d w', options_of MoveSprintIssues (VObject 1) Sample.world2
               = (Normal d, w'))
  ∧ property_value
      <$> (heap (options_of MoveSprintIssues (VObject 1) Sample.world2).2
             !! 1%positive ≫= (.!! "sprintId"))
    = Some (VNumber 7%Z).
Proof.
  split; [reflexivity|]. split; [by repeat split|].
  split; [reflexivity|]. split; [|reflexivity].
  intros (d & w' & Hd). discriminate Hd.
Qed.

Lemma body_without_identifier_witness :
  carrier UpdateSprint (VObject 2) Sample.world0 3 (plain Sample.payload)
    Sample.store0
  ∧ ∃ d w' o',
      options_of UpdateSprint (VObject 2) Sample.world0 = (Normal d, w')
      ∧ body d = Some (VObject 3)
      ∧ heap w' !! 3%positive = Some o'
      ∧ o' !! "sprintId" = None
      ∧ ∀ k, k ≠ "sprintId" → o' !! k = plain Sample.payload !! k.
Proof.
  assert (carrier UpdateSprint (VObject 2) Sample.world0 3
            (plain Sample.payload) Sample.store0) as Hc.
  { eexists. repeat split; reflexivity. }
  split; [exact Hc|].
  exact (body_without_identifier UpdateSprint _ _ _ _ _ eq_refl Hc).
Defined.

Lemma uri_and_method_witness :
  ∃ d w',
    options_of GetSprintIssues (VObject 1) Sample.world0 = (Normal d, w')
    ∧ uri d = buildAgileURL
                (substitute (ToString (heap w') (VNumber 42%Z))
                   (path_template GetSprintIssues))
    ∧ method d = method_table GetSprintIssues
    ∧ (placeholder_free (ToString (heap w') (VNumber 42%Z)) = true →
       placeholder_free
         (substitute (ToString (heap w') (VNumber 42%Z))
            (path_template GetSprintIssues)) = true).
Proof.
  destruct (uri_and_method GetSprintIssues (VObject 1) Sample.world0
              1 (plain Sample.get_options) Sample.store0 (VNumber 42%Z))
    as (Hall & d & w' & Hd).
  { by repeat split. }
  { reflexivity. }
  exists d, w'. split; [exact Hd|]. exact (Hall d w' Hd).
Defined.

Lemma query_has_declared_keys_witness :
  ∃ d q,
    options_of GetSprint (VObject 1) Sample.world0 = (Normal d, Sample.world0)
    ∧ qs d = Some q
    ∧ dom q = declared_query GetSprint
    ∧ (∀ k, k ∈ declared_query GetSprint →
         q !! k = Some (default VUndefined
                          (property_value <$> plain Sample.get_options !! k)))
    ∧ body d = None.
Proof.
  exact (query_has_declared_keys GetSprint 1 (plain Sample.get_options)
           Sample.world0 eq_refl eq_refl).
Defined.

(** C4, as the claim states it, fails: [getSprint({})] needs an identifier,
    the options have none, and no failure is signalled; the descriptor
    goes out with the path [/sprint/undefined]. *)
Lemma missing_identifier_not_signalled :
  lacks_identifier GetSprint (VObject 8) Sample.world0
  ∧ ¬ signals_failure (options_of GetSprint (VObject 8) Sample.world0)
  ∧ ∃ d,
      (options_of GetSprint (VObject 8) Sample.world0).1 = Normal d
      ∧ uri d = "https://jira.example.com/rest/agile/1.0/sprint/undefined".
Proof.
  split.
  { split; [done|]. exists 8%positive, ∅, Sample.store0.
    repeat split; reflexivity. }
  split.
  { intros (e & He). discriminate He. }
  eexists. split; reflexivity.
Qed.

Lemma missing_identifier_builds_undefined_path_witness :
  lacks_identifier SwapSprint (VObject 9) Sample.world0
  ∧ ¬ signals_failure (options_of SwapSprint (VObject 9) Sample.world0)
  ∧ ∃ d w',
      options_of SwapSprint (VObject 9) Sample.world0 = (Normal d, w')
      ∧ uri d = buildAgileURL (substitute "undefined" (path_template SwapSprint))
      ∧ method d = method_table SwapSprint.
Proof.
  assert (lacks_identifier SwapSprint (VObject 9) Sample.world0) as Hl.
  { split; [done|].
    exists 10%positive, (plain {[ "name" := VString "Sprint 5" ]}),
      Sample.store0.
    split; [|reflexivity]. eexists. repeat split; reflexivity. }
  split; [exact Hl|].
  exact (missing_identifier_builds_undefined_path SwapSprint _ _ Hl).
Defined.

Lemma sample_dual_dispatch : dual_dispatch.
Proof. intros options f h p h' Hp. by inversion Hp. Qed.

Lemma callback_forwarded_once_witness :
  ∃ d w1,
    options_of GetSprint (VObject 1) Sample.world0 = (Normal d, w1)
    ∧ (invoke GetSprint (VObject 1) Sample.callback Sample.world0).1
      = (makeRequest d Sample.callback (heap w1)).1
    ∧ requests (invoke GetSprint (VObject 1) Sample.callback Sample.world0).2
      = requests Sample.world0 ++ [(d, Sample.callback)]
    ∧ ∀ p,
        (invoke GetSprint (VObject 1) Sample.callback Sample.world0).1
        = Normal p →
        notified p = [(Sample.callback, settled p)].
Proof.
  destruct (callback_forwarded_once GetSprint (VObject 1) Sample.callback
              Sample.world0 1 (plain Sample.get_options) Sample.store0)
    as (Hall & d & w1 & Hd).
  { by repeat split. }
  destruct (Hall d w1 Hd) as (Hr & _ & Hq & Hn).
  exists d, w1. repeat (split; [done|]).
  intros p Hp. exact (Hn sample_dual_dispatch 11%positive p eq_refl Hp).
Defined.

(** C7, as the claim states it, fails:
    [moveSprintIssues(Object.freeze({sprintId: 7, issues: [...]}))] does
    not mutate the caller's options object.  The call throws a TypeError,
    the object is as it was, [sprintId] included, and no request is
    made. *)
Lemma frozen_options_not_mutated :
  heap Sample.world2 !! 1%positive = Some (frozen (Sample.move_options 2))
  ∧ moveSprintIssues (VObject 1) Sample.callback Sample.world2
    = (Throw TypeError, Sample.world2)
  ∧ heap (moveSprintIssues (VObject 1) Sample.callback Sample.world2).2
      !! 1%positive
    = Some (frozen (Sample.move_options 2))
  ∧ frozen (Sample.move_options 2) !! "sprintId"
    = Some {| property_value := VNumber 7%Z; configurable := false |}
  ∧ requests (moveSprintIssues (VObject 1) Sample.callback Sample.world2).2
    = [].
Proof. repeat split; reflexivity. Qed.

Lemma moveSprintIssues_mutates_options_witness :
  ∃ d w' o',
    moveSprintIssues_options (VObject 4) Sample.world0 = (Normal d, w')
    ∧ heap w' !! 4%positive = Some o'
    ∧ o' !! "sprintId" = None
    ∧ (∀ k, k ≠ "sprintId" → o' !! k = plain (Sample.move_options 5) !! k)
    ∧ (∀ l', l' ≠ 4%positive → heap w' !! l' = heap Sample.world0 !! l')
    ∧ body d = Some (VObject 4)
    ∧ suppliedOptions d = VObject 4.
Proof.
  exact (moveSprintIssues_mutates_options 4 (plain (Sample.move_options 5))
           Sample.world0 Sample.callback eq_refl).
Defined.

Lemma descriptor_flags_witness :
  json Sample.get_descriptor = true
  ∧ followAllRedirects Sample.get_descriptor = true.
Proof.
  exact (descriptor_flags GetSprint (VObject 1) Sample.world0
           Sample.get_descriptor Sample.world0 eq_refl).
Defined.

(** The concrete client depends on structure only, and the two copies of
    the options of [moveSprintIssues] are structurally identical. *)
Lemma copy_bijection : partial_bijection Sample.copy.
Proof. unfold Sample.copy. split; intros; destruct_or!; destruct_and!; congruence. Qed.

Lemma copy_same_store : same_store Sample.copy Sample.store0 Sample.store0.
Proof.
  intros a b [[-> ->]|[-> ->]].
  - change (option_Forall2 (same_table Sample.copy)
              (Some (plain (Sample.move_options 5)))
              (Some (plain (Sample.move_options 7)))).
    constructor. apply same_table_plain. unfold Sample.move_options.
    apply same_query_insert; [constructor|].
    apply same_query_insert; [constructor; by right|].
    apply same_query_empty.
  - change (option_Forall2 (same_table Sample.copy)
              (Some (plain Sample.issues)) (Some (plain Sample.issues))).
    constructor. apply same_table_plain. unfold Sample.issues.
    repeat (apply same_query_insert; [constructor|]).
    apply same_query_empty.
Qed.

Lemma sample_Object_toString_structural : Object_toString_structural.
Proof. by intros R h1 h2 a b _ _ _. Qed.

Lemma sample_parseOptions_structural : parseOptions_structural.
Proof.
  intros R h1 h2 o1 o2 key HR Hs Hv. exists R. split; [done|].
  destruct Hv as [| |b|n|s|a b Hab]; simpl;
    try (split; [by repeat constructor | done]).
  split; [|done]. split; [by constructor|]. simpl.
  pose proof (Get_structural R (VObject a) (VObject b) "data"
                {| heap := h1; requests := [] |} {| heap := h2; requests := [] |}
                (same_object R a b Hab) Hs) as [Hg _].
  exact Hg.
Qed.

Lemma structurally_identical_options_witness :
  ∃ R', partial_bijection R'
        ∧ same_run R' (same_descriptor R')
            (options_of MoveSprintIssues (VObject 4) Sample.world0)
            (options_of MoveSprintIssues (VObject 6) Sample.world0).
Proof.
  apply (structurally_identical_options MoveSprintIssues Sample.copy).
  - exact copy_bijection.
  - exact copy_same_store.
  - constructor. by left.
  - exact sample_Object_toString_structural.
  - exact sample_parseOptions_structural.
Defined.

(** ** The further properties at the scenarios *)

Lemma nullish_options_throw_witness :
  invoke GetSprint VNull Sample.callback Sample.world0
  = (Throw TypeError, Sample.world0).
Proof.
  exact (nullish_options_throw GetSprint VNull Sample.callback Sample.world0
           eq_refl eq_refl).
Defined.

Lemma nullish_payload_throws_witness :
  invoke UpdateSprint (VObject 8) Sample.callback Sample.world0
  = (Throw TypeError,
     {| heap := Sample.store0; requests := requests Sample.world0 |}).
Proof.
  exact (nullish_payload_throws UpdateSprint "sprint" (VObject 8)
           Sample.callback Sample.world0
           {| parsed_suppliedOptions := VObject 8; parsed_body := VUndefined |}
           Sample.store0 eq_refl eq_refl eq_refl).
Defined.

Lemma parseOptions_failure_propagates_witness :
  invoke CreateSprint VUndefined Sample.callback Sample.world0
  = (Throw TypeError,
     {| heap := Sample.store0; requests := requests Sample.world0 |}).
Proof.
  exact (parseOptions_failure_propagates CreateSprint VUndefined VUndefined
           Sample.callback Sample.world0 TypeError Sample.store0
           eq_refl eq_refl).
Defined.

Lemma createSprint_forwards_payload_witness :
  ∃ d,
    createSprint_options (VObject 2) Sample.world0
    = (Normal d, {| heap := Sample.store0; requests := requests Sample.world0 |})
    ∧ body d = Some (VObject 3)
    ∧ suppliedOptions d = VObject 2
    ∧ qs d = None.
Proof.
  exact (createSprint_forwards_payload (VObject 2) Sample.world0
           {| parsed_suppliedOptions := VObject 2; parsed_body := VObject 3 |}
           Sample.store0 eq_refl).
Defined.

Lemma swap_carrier :
  carrier SwapSprint (VObject 2) Sample.world0 3 (plain Sample.payload)
    Sample.store0.
Proof. eexists. repeat split; reflexivity. Qed.

Lemma extraction_touches_one_object_witness :
  (∀ l', l' ≠ 3%positive →
     heap (options_of SwapSprint (VObject 2) Sample.world0).2 !! l'
     = Sample.store0 !! l')
  ∧ requests (options_of SwapSprint (VObject 2) Sample.world0).2
    = requests Sample.world0.
Proof.
  exact (extraction_touches_one_object SwapSprint (VObject 2) Sample.world0
           3 (plain Sample.payload) Sample.store0 eq_refl swap_carrier).
Defined.

Lemma update_carrier_without_identifier :
  carrier UpdateSprint (VObject 9) Sample.world0 10
    (plain {[ "name" := VString "Sprint 5" ]}) Sample.store0.
Proof. eexists. repeat split; reflexivity. Qed.

Lemma extraction_without_identifier_witness :
  heap (options_of UpdateSprint (VObject 9) Sample.world0).2 = Sample.store0.
Proof.
  exact (extraction_without_identifier UpdateSprint (VObject 9) Sample.world0
           10 _ Sample.store0 eq_refl update_carrier_without_identifier
           eq_refl).
Defined.

Lemma primitive_options_accepted_witness :
  ∃ d,
    options_of MoveSprintIssues (VString "7") Sample.world0
    = (Normal d, Sample.world0)
    ∧ uri d = buildAgileURL
                (substitute "undefined" (path_template MoveSprintIssues))
    ∧ suppliedOptions d = VString "7"
    ∧ (∀ q, qs d = Some q → map_Forall (λ _ v, v = VUndefined) q)
    ∧ (∀ b, body d = Some b → b = VString "7").
Proof.
  exact (primitive_options_accepted MoveSprintIssues (VString "7")
           Sample.world0 eq_refl eq_refl).
Defined.

Lemma identifier_not_escaped_witness :
  ∃ d1 d2,
    getSprint_options (VObject 1) Sample.world1 = (Normal d1, Sample.world1)
    ∧ getSprintIssues_options (VObject 2) Sample.world1
      = (Normal d2, Sample.world1)
    ∧ uri d1 = uri d2.
Proof.
  exact (identifier_not_escaped "7" 1 _ 2 _ Sample.world1
           eq_refl eq_refl eq_refl eq_refl).
Defined.

Lemma query_or_body_witness :
  is_Some (qs Sample.get_descriptor) ∧ body Sample.get_descriptor = None.
Proof.
  exact (query_or_body GetSprint (VObject 1) Sample.world0
           Sample.get_descriptor Sample.world0 eq_refl).
Defined.

End Scenarios.
